(** * ChatArea: the chat surface of src/components/chat-area.tsx

    A shallow embedding of the [ChatArea] function component and of the
    JavaScript and React notions it is written with, followed by the
    properties of its rendering contract. *)

From Stdlib Require Import String Ascii List Bool Arith NArith ZArith Lia.
Import ListNotations.
Open Scope string_scope.
Open Scope list_scope.

(** ** JavaScript strings *)

Module JS.

(** A JavaScript string is a sequence of UTF-16 code units. *)
Definition jsstring : Type := list N.

(** A literal of the source text, one code unit per character. *)
Definition lit (s : string) : jsstring :=
  map N_of_ascii (list_ascii_of_string s).

(** [a === b] on two strings *)
Fixpoint jsstring_eqb (a b : jsstring) : bool :=
  match a, b with
  | [], [] => true
  | x :: a', y :: b' => N.eqb x y && jsstring_eqb a' b'
  | _, _ => false
  end.

(** A template literal with one substitution: [`pre${x}`]. *)
Definition template (pre x : jsstring) : jsstring := pre ++ x.

(** ECMAScript WhiteSpace and LineTerminator code points, the ones
    [String.prototype.trim] strips.  All of them are single code units. *)
Definition is_white_space (c : N) : bool :=
  match c with
  | 9 | 10 | 11 | 12 | 13 | 32 | 160 => true     (* TAB LF VT FF CR SP NBSP *)
  | 5760 => true                                 (* U+1680 *)
  | 8232 | 8233 => true                          (* U+2028 U+2029 *)
  | 8239 | 8287 | 12288 | 65279 => true          (* U+202F U+205F U+3000 U+FEFF *)
  | _ => (8192 <=? c) && (c <=? 8202)            (* U+2000 .. U+200A *)
  end%N.

Fixpoint trimStart (s : jsstring) : jsstring :=
  match s with
  | [] => []
  | c :: s' => if is_white_space c then trimStart s' else s
  end.

Definition trimEnd (s : jsstring) : jsstring := rev (trimStart (rev s)).

(** [s.trim()] *)
Definition trim (s : jsstring) : jsstring := trimEnd (trimStart s).

(** ToBoolean on a string: only the empty string is falsy. *)
Definition truthy (s : jsstring) : bool :=
  match s with [] => false | _ :: _ => true end.

(** A string all of whose code units are white space (the empty one too). *)
Definition whitespace_only (s : jsstring) : Prop :=
  Forall (fun c => is_white_space c = true) s.

(** A string with at least one code unit that is not white space. *)
Definition has_content (s : jsstring) : Prop :=
  Exists (fun c => is_white_space c = false) s.

(** A function value: an object, compared by reference. *)
Definition FnRef : Type := nat.

End JS.

Export JS.
Coercion lit : string >-> jsstring.

(** ** Messages and props *)

(** The fields of the imported [Message] type that the component reads.
    [role] is a string at run time; the component compares it with
    ["user"] and nothing else. *)
Record Message : Type := mkMessage {
  role : jsstring;
  id : jsstring;
  content : jsstring
}.

(** interface ChatAreaProps *)
Record ChatAreaProps : Type := mkProps {
  messages : list Message;
  input : jsstring;
  handleInputChange : FnRef;
  handleSubmit : FnRef;
  isLoading : bool
}.

(** ** React element trees *)

Inductive PropVal : Type :=
| PString (s : jsstring)
| PNumber (n : N)
| PBool (b : bool)
| PFn (f : FnRef)
| PStyle (decls : list (string * jsstring)).

Definition Props : Type := list (string * PropVal).

(** What a component may return or place among an element's children. *)
#[local] Unset Elimination Schemes.
Inductive Node : Type :=
| Element (type : string) (key : option jsstring) (props : Props) (children : list Node)
| Fragment (children : list Node)
| Text (s : jsstring)
| NodeArray (items : list Node)      (* an array child, as [messages.map] gives *)
| NodeFalse.                         (* the value [false]: renders nothing *)
#[local] Set Elimination Schemes.

Definition children_of (n : Node) : list Node :=
  match n with
  | Element _ _ _ cs => cs
  | Fragment cs => cs
  | NodeArray cs => cs
  | Text _ | NodeFalse => []
  end.

Definition key_of (n : Node) : option jsstring :=
  match n with
  | Element _ k _ _ => k
  | _ => None
  end.

Fixpoint lookup_prop (name : string) (ps : Props) : option PropVal :=
  match ps with
  | [] => None
  | (n, v) :: ps' => if String.eqb n name then Some v else lookup_prop name ps'
  end.

Definition prop_of (name : string) (n : Node) : option PropVal :=
  match n with
  | Element _ _ ps _ => lookup_prop name ps
  | _ => None
  end.

(** The node reached from [n] by following child indices. *)
Fixpoint node_at (path : list nat) (n : Node) : option Node :=
  match path with
  | [] => Some n
  | i :: path' =>
      match nth_error (children_of n) i with
      | Some c => node_at path' c
      | None => None
      end
  end.

(** *** Decidable equality of trees *)

Fixpoint style_eqb (a b : list (string * jsstring)) : bool :=
  match a, b with
  | [], [] => true
  | (n, v) :: a', (m, w) :: b' => String.eqb n m && jsstring_eqb v w && style_eqb a' b'
  | _, _ => false
  end.

Definition propval_eqb (a b : PropVal) : bool :=
  match a, b with
  | PString s, PString t => jsstring_eqb s t
  | PNumber n, PNumber m => N.eqb n m
  | PBool x, PBool y => Bool.eqb x y
  | PFn f, PFn g => Nat.eqb f g
  | PStyle d, PStyle e => style_eqb d e
  | _, _ => false
  end.

Fixpoint props_eqb (a b : Props) : bool :=
  match a, b with
  | [], [] => true
  | (n, v) :: a', (m, w) :: b' => String.eqb n m && propval_eqb v w && props_eqb a' b'
  | _, _ => false
  end.

Definition key_eqb (a b : option jsstring) : bool :=
  match a, b with
  | None, None => true
  | Some s, Some t => jsstring_eqb s t
  | _, _ => false
  end.

Fixpoint node_eqb (a b : Node) {struct a} : bool :=
  let fix nodes_eqb (xs ys : list Node) {struct xs} : bool :=
    match xs, ys with
    | [], [] => true
    | x :: xs', y :: ys' => node_eqb x y && nodes_eqb xs' ys'
    | _, _ => false
    end in
  match a, b with
  | Element t k ps cs, Element t' k' ps' cs' =>
      String.eqb t t' && key_eqb k k' && props_eqb ps ps' && nodes_eqb cs cs'
  | Fragment cs, Fragment cs' => nodes_eqb cs cs'
  | Text s, Text s' => jsstring_eqb s s'
  | NodeArray cs, NodeArray cs' => nodes_eqb cs cs'
  | NodeFalse, NodeFalse => true
  | _, _ => false
  end.

(** [contains t n]: the tree [t] occurs in [n], at the root or below. *)
Fixpoint contains (t : Node) (n : Node) {struct n} : bool :=
  node_eqb n t ||
  match n with
  | Element _ _ _ cs => existsb (contains t) cs
  | Fragment cs => existsb (contains t) cs
  | NodeArray cs => existsb (contains t) cs
  | Text _ | NodeFalse => false
  end.

(** [occurs ty n]: an element of type [ty] occurs in [n]. *)
Fixpoint occurs (ty : string) (n : Node) {struct n} : bool :=
  match n with
  | Element t _ _ cs => String.eqb t ty || existsb (occurs ty) cs
  | Fragment cs => existsb (occurs ty) cs
  | NodeArray cs => existsb (occurs ty) cs
  | Text _ | NodeFalse => false
  end.

(** React's view of a list of children: arrays are flattened and [false]
    renders nothing. *)
Fixpoint flatten (n : Node) : list Node :=
  match n with
  | NodeArray items => flat_map flatten items
  | NodeFalse => []
  | _ => [n]
  end.

Definition rendered_children (cs : list Node) : list Node := flat_map flatten cs.

(** ** Rendering as a computation over the caller's data

    The component receives its props by reference.  A render is a
    computation that threads the props object (and the message array it
    holds) through every access the source makes. *)

Module Render.

Definition M (A : Type) : Type := ChatAreaProps -> A * ChatAreaProps.

Definition ret {A : Type} (a : A) : M A := fun st => (a, st).

Definition bind {A B : Type} (m : M A) (k : A -> M B) : M B :=
  fun st => let (a, st') := m st in k a st'.

(** Destructuring of the parameter: [{ messages, input, ... }]. *)
Definition get {A : Type} (field : ChatAreaProps -> A) : M A :=
  fun st => (field st, st).

(** [messages.length] *)
Definition messages_length : M Z :=
  fun st => (Z.of_nat (length (messages st)), st).

(** [messages[i]]: [undefined] outside the array. *)
Definition messages_index (i : Z) : M (option Message) :=
  fun st => ((if (i <? 0)%Z then None else nth_error (messages st) (Z.to_nat i)), st).

(** [messages.map(f)]: a new array; [f] reads its argument. *)
Definition messages_map (f : Message -> Node) : M Node :=
  fun st => (NodeArray (map f (messages st)), st).

End Render.

Import Render.

Notation "x <- m ;; k" := (bind m (fun x => k))
  (at level 61, m at next level, right associativity).
Notation "a === b" := (jsstring_eqb a b) (at level 69, no associativity).

(** [m?.role === s]: [undefined] is not equal to a string. *)
Definition opt_role_is (m : option Message) (s : jsstring) : bool :=
  match m with
  | Some message => role message === s
  | None => false
  end.

(** ** The component *)

Definition className (s : jsstring) : string * PropVal := ("className", PString s).

(** Lines 44-49: the header. *)
Definition header : Node :=
  Element "div" None [className "border-b border-border p-4 flex items-center justify-center"]
    [ Element "div" None [className "flex items-center gap-2"]
        [ Element "Sparkles" None [("size", PNumber 18); className "text-primary"] [];
          Element "span" None [className "font-medium"] [Text "AI Assistant"] ] ].

(** Lines 56-63: the empty state. *)
Definition empty_state : Node :=
  Element "div" None [className "flex h-[60vh] items-center justify-center text-center"]
    [ Element "div" None [className "max-w-md space-y-2"]
        [ Element "h2" None [className "text-2xl font-bold"] [Text "How can I help you today?"];
          Element "p" None [className "text-muted-foreground"]
            [Text "Ask me anything! I can help with coding, explanations, creative writing, and more."] ] ].

(** Lines 67-92: the callback given to [messages.map]. *)
Definition message_bubble (message : Message) : Node :=
  Element "div" (Some (id message))
    [className (template "flex " (if role message === "user" then "justify-end" else "justify-start"))]
    [ Element "div" None
        [className (template "flex gap-3 max-w-[80%] " (if role message === "user" then "flex-row-reverse" else ""))]
        [ Element "Avatar" None [className "h-10 w-10"]
            [ if role message === "user"
              then Fragment [ Element "AvatarFallback" None [] [Text "U"];
                              Element "AvatarImage" None [("src", PString "/avatar.png")] [] ]
              else Fragment [ Element "AvatarFallback" None [] [Text "AI"];
                              Element "AvatarImage" None [("src", PString "/avatar.png")] [] ] ];
          Element "div" None
            [className (template "rounded-lg p-4 "
                          (if role message === "user" then "bg-primary text-primary-foreground" else "bg-muted"))]
            [ Element "p" None [className "whitespace-pre-wrap"] [Text (content message)] ] ] ].

Definition bouncing_dot (delay : string) : Node :=
  Element "span" None
    [className "w-2 h-2 bg-muted-foreground/40 rounded-full animate-bounce";
     ("style", PStyle [("animationDelay", lit delay)])] [].

(** Lines 97-111: the loading indicator. *)
Definition loading_indicator : Node :=
  Element "div" None [className "flex justify-start"]
    [ Element "div" None [className "flex gap-3 max-w-[80%]"]
        [ Element "Avatar" None [className "h-10 w-10"]
            [ Element "AvatarFallback" None [] [Text "AI"];
              Element "AvatarImage" None [("src", PString "/avatar.png")] [] ];
          Element "div" None [className "rounded-lg p-4 bg-muted flex items-center gap-2"]
            [ Element "div" None [className "flex gap-1"]
                [ bouncing_dot "0ms"; bouncing_dot "150ms"; bouncing_dot "300ms" ] ] ] ].

(** Lines 117-134: the input form. *)
Definition composer (input : jsstring) (handleInputChange handleSubmit : FnRef)
    (isLoading : bool) : Node :=
  Element "div" None [className "border-t border-border p-4"]
    [ Element "form" None [("onSubmit", PFn handleSubmit); className "relative"]
        [ Element "Textarea" None
            [ ("name", PString "prompt");
              ("value", PString input);
              ("onChange", PFn handleInputChange);
              ("placeholder", PString "Message AI Assistant...");
              className "min-h-[60px] w-full resize-none pr-12 py-3 rounded-lg";
              ("rows", PNumber 1) ] [];
          Element "Button" None
            [ ("type", PString "submit");
              ("size", PString "icon");
              className "absolute right-2 bottom-2";
              ("disabled", PBool (isLoading || negb (truthy (trim input)))) ]
            [ Element "SendIcon" None [("size", PNumber 18)] [] ] ];
      Element "p" None [className "text-xs text-center text-muted-foreground mt-2"]
        [Text "AI Assistant may produce inaccurate information. Verify important information."] ].

(** Line 55-94: [messages.length === 0 ? ( empty state ) : messages.map(...)] *)
Definition history : M Node :=
  len <- messages_length ;;
  if (len =? 0)%Z then ret empty_state else messages_map message_bubble.

(** Line 96: [isLoading && messages.length > 0
      && messages[messages.length - 1]?.role === 'user' && ( indicator )] *)
Definition indicator (isLoading : bool) : M Node :=
  if isLoading then
    len <- messages_length ;;
    if (0 <? len)%Z then
      len' <- messages_length ;;
      last <- messages_index (len' - 1) ;;
      if opt_role_is last "user" then ret loading_indicator else ret NodeFalse
    else ret NodeFalse
  else ret NodeFalse.

(** export default function ChatArea({ messages, input, handleInputChange,
    handleSubmit, isLoading }) *)
Definition ChatArea : M Node :=
  input <- get input ;;
  handleInputChange <- get handleInputChange ;;
  handleSubmit <- get handleSubmit ;;
  isLoading <- get isLoading ;;
  history <- history ;;
  indicator <- indicator isLoading ;;
  ret (Element "div" None [className "flex flex-col h-full"]
         [ header;
           Element "ScrollArea" None [className "flex-1 p-4"]
             [ Element "div" None [className "space-y-6"] [ history; indicator ] ];
           composer input handleInputChange handleSubmit isLoading ]).

(** The tree a render returns, and the caller's data after it. *)
Definition render (p : ChatAreaProps) : Node := fst (ChatArea p).
Definition after_render (p : ChatAreaProps) : ChatAreaProps := snd (ChatArea p).

(** The children of the transcript container as React shows them. *)
Definition transcript (tree : Node) : list Node :=
  match node_at [1; 0] tree with
  | Some container => rendered_children (children_of container)
  | None => []
  end.

(** The [disabled] prop of the submit control and the [value] prop of the
    composer's text area, read off the tree. *)
Definition submit_control (tree : Node) : option Node := node_at [2; 0; 1] tree.
Definition composer_textarea (tree : Node) : option Node := node_at [2; 0; 0] tree.

Definition submit_disabled (tree : Node) : option PropVal :=
  match submit_control tree with
  | Some b => prop_of "disabled" b
  | None => None
  end.

Definition displayed_draft (tree : Node) : option PropVal :=
  match composer_textarea tree with
  | Some t => prop_of "value" t
  | None => None
  end.

Definition shows_loading_indicator (tree : Node) : bool := contains loading_indicator tree.

(** Induction on trees, with the property available for every child. *)
Section NodeInduction.

Variable P : Node -> Prop.
Hypothesis HElement : forall t k ps cs, Forall P cs -> P (Element t k ps cs).
Hypothesis HFragment : forall cs, Forall P cs -> P (Fragment cs).
Hypothesis HText : forall s, P (Text s).
Hypothesis HArray : forall cs, Forall P cs -> P (NodeArray cs).
Hypothesis HFalse : P NodeFalse.

Fixpoint Node_children_ind (n : Node) : P n :=
  let fix all (cs : list Node) : Forall P cs :=
    match cs with
    | [] => Forall_nil P
    | c :: cs' => Forall_cons c (Node_children_ind c) (all cs')
    end in
  match n with
  | Element t k ps cs => HElement t k ps cs (all cs)
  | Fragment cs => HFragment cs (all cs)
  | Text s => HText s
  | NodeArray cs => HArray cs (all cs)
  | NodeFalse => HFalse
  end.

End NodeInduction.

(** Equality of two lists of children, child by child. *)
Fixpoint nodes_eqb (xs ys : list Node) : bool :=
  match xs, ys with
  | [], [] => true
  | x :: xs', y :: ys' => node_eqb x y && nodes_eqb xs' ys'
  | _, _ => false
  end.

(** ** The host: gestures of the user and the callbacks they reach *)

(** The event object a handler receives. *)
Inductive Event : Type :=
| ChangeEvent (value : jsstring)     (* React.ChangeEvent: [e.target.value] *)
| SubmitEvent.                       (* the FormEvent of a form submission *)

(** One invocation of a caller-supplied function. *)
Record Call : Type := mkCall { callee : FnRef; argument : Event }.

Inductive Gesture : Type :=
| Edit (target : list nat) (value : jsstring)   (* the text of the control at [target] becomes [value] *)
| Activate (target : list nat).                 (* a click on, or keyboard activation of, the control at [target] *)

Definition is_disabled (ps : Props) : bool :=
  match lookup_prop "disabled" ps with
  | Some (PBool b) => b
  | _ => false
  end.

Definition is_submit (ps : Props) : bool :=
  match lookup_prop "type" ps with
  | Some (PString s) => s === "submit"
  | _ => false
  end.

Definition handler_of (name : string) (ps : Props) : option FnRef :=
  match lookup_prop name ps with
  | Some (PFn f) => Some f
  | _ => None
  end.

(** Modelled from the spec: the text-area primitive (./ui/text-area) is not
    under src/.  Every edit in the composer invokes the [onChange] handler
    once, with the new value; no other element reacts to an edit. *)
Fixpoint dispatch_edit (target : list nat) (value : jsstring) (n : Node) : list Call :=
  match target with
  | [] =>
      match n with
      | Element ty _ ps _ =>
          if String.eqb ty "Textarea" then
            match handler_of "onChange" ps with
            | Some h => [mkCall h (ChangeEvent value)]
            | None => []
            end
          else []
      | _ => []
      end
  | i :: target' =>
      match nth_error (children_of n) i with
      | Some c => dispatch_edit target' value c
      | None => []
      end
  end.

(** Modelled from the spec: the button primitive (./ui/button) and the
    host's form handling are not under src/.  Activating a submit control
    submits the form around it, which invokes that form's [onSubmit], but
    only when the control is not disabled; nothing else submits a form.
    [form] is the handler of the nearest enclosing form, if any. *)
Fixpoint dispatch_activate (target : list nat) (form : option FnRef) (n : Node) : list Call :=
  match target with
  | [] =>
      match n with
      | Element ty _ ps _ =>
          if String.eqb ty "Button" && is_submit ps && negb (is_disabled ps) then
            match form with
            | Some h => [mkCall h SubmitEvent]
            | None => []
            end
          else []
      | _ => []
      end
  | i :: target' =>
      let form' :=
        match n with
        | Element ty _ ps _ => if String.eqb ty "form" then handler_of "onSubmit" ps else form
        | _ => form
        end in
      match nth_error (children_of n) i with
      | Some c => dispatch_activate target' form' c
      | None => []
      end
  end.

Definition dispatch (tree : Node) (g : Gesture) : list Call :=
  match g with
  | Edit target value => dispatch_edit target value tree
  | Activate target => dispatch_activate target None tree
  end.

(** Where the composer's controls sit in the tree [ChatArea] returns. *)
Definition textarea_path : list nat := [2; 0; 0].
Definition submit_path : list nat := [2; 0; 1].
Definition form_path : list nat := [2; 0].

(** *** A session: the caller, the view and the user over time

    The caller owns a state of its own, derives the props from it, reacts to
    every callback invocation, and may also change its state on its own (a
    response arrives, loading ends). *)

Record Entry : Type := mkEntry {
  entry_props : ChatAreaProps;       (* the props of the render on screen *)
  entry_gesture : Gesture;
  entry_call : Call
}.

Section Session.

Variable State : Type.
Variable props_of : State -> ChatAreaProps.
Variable react : State -> Call -> State.

Definition Config : Type := (State * list Entry)%type.

Inductive step : Config -> Config -> Prop :=
| step_gesture (s : State) (log : list Entry) (g : Gesture) :
    step (s, log)
         (fold_left react (dispatch (render (props_of s)) g) s,
          log ++ map (mkEntry (props_of s) g) (dispatch (render (props_of s)) g))
| step_caller (s s' : State) (log : list Entry) :
    step (s, log) (s', log).

Inductive reachable (s0 : State) : Config -> Prop :=
| reach_start : reachable s0 (s0, [])
| reach_step (c c' : Config) : reachable s0 c -> step c c' -> reachable s0 c'.

End Session.

(** ** Notions the properties are stated with *)

(** The last element of a message sequence, if it has one. *)
Definition last_message (ms : list Message) : option Message :=
  match ms with
  | [] => None
  | m :: ms' => Some (last ms' m)
  end.

(** The values of the two expressions placed in the transcript container. *)
Definition history_node (ms : list Message) : Node :=
  match ms with
  | [] => empty_state
  | _ :: _ => NodeArray (map message_bubble ms)
  end.

Definition indicator_node (loading : bool) (ms : list Message) : Node :=
  if loading && opt_role_is (last_message ms) "user" then loading_indicator else NodeFalse.

(** How a bubble presents its message, read off the bubble's tree: the
    class of the row, of the avatar-and-bubble group and of the bubble
    itself, and the text of the avatar's fallback. *)
Record Presentation : Type := mkPresentation {
  row_class : option PropVal;
  group_class : option PropVal;
  bubble_class : option PropVal;
  avatar_fallback : option Node
}.

Definition class_at (path : list nat) (n : Node) : option PropVal :=
  match node_at path n with
  | Some e => prop_of "className" e
  | None => None
  end.

Definition presentation_of (bubble : Node) : Presentation :=
  {| row_class := class_at [] bubble;
     group_class := class_at [0] bubble;
     bubble_class := class_at [0; 1] bubble;
     avatar_fallback := node_at [0; 0; 0; 0; 0] bubble |}.

(** Right-aligned, row reversed, primary colours, "U". *)
Definition user_presentation : Presentation :=
  {| row_class := Some (PString "flex justify-end");
     group_class := Some (PString "flex gap-3 max-w-[80%] flex-row-reverse");
     bubble_class := Some (PString "rounded-lg p-4 bg-primary text-primary-foreground");
     avatar_fallback := Some (Text "U") |}.

(** Left-aligned, row in order, muted colours, "AI". *)
Definition assistant_presentation : Presentation :=
  {| row_class := Some (PString "flex justify-start");
     group_class := Some (PString "flex gap-3 max-w-[80%] ");
     bubble_class := Some (PString "rounded-lg p-4 bg-muted");
     avatar_fallback := Some (Text "AI") |}.

(** The paragraph that carries a bubble's text. *)
Definition bubble_paragraph (bubble : Node) : option Node := node_at [0; 1; 0] bubble.

(** A logged call that carries a submission was made through the enabled
    submit control of the render then on screen, to its [handleSubmit]. *)
Definition submit_entry_ok (e : Entry) : Prop :=
  argument (entry_call e) = SubmitEvent ->
  entry_gesture e = Activate submit_path
  /\ callee (entry_call e) = handleSubmit (entry_props e)
  /\ submit_disabled (render (entry_props e)) = Some (PBool false).

(** A logged call that carries a change was made by an edit of the
    composer's text area, to [handleInputChange], with the new value. *)
Definition change_entry_ok (e : Entry) : Prop :=
  forall v, argument (entry_call e) = ChangeEvent v ->
  entry_gesture e = Edit textarea_path v
  /\ callee (entry_call e) = handleInputChange (entry_props e).

(** A caller used in examples: its state is the props; an edit stores the
    new draft, a submission appends the draft as a user message, clears the
    draft and starts loading. *)
Definition sample_react (s : ChatAreaProps) (c : Call) : ChatAreaProps :=
  match argument c with
  | ChangeEvent v =>
      mkProps (messages s) v (handleInputChange s) (handleSubmit s) (isLoading s)
  | SubmitEvent =>
      mkProps (messages s ++ [mkMessage "user" (input s) (input s)]) []
              (handleInputChange s) (handleSubmit s) true
  end.

(** The function-valued props of a tree, in document order, each with the
    type of the element that carries it and the name of the prop. *)
Fixpoint fn_props (ps : Props) : list (string * FnRef) :=
  match ps with
  | [] => []
  | (name, PFn f) :: ps' => (name, f) :: fn_props ps'
  | _ :: ps' => fn_props ps'
  end.

Fixpoint handlers_of (n : Node) : list (string * (string * FnRef)) :=
  match n with
  | Element ty _ ps cs => map (pair ty) (fn_props ps) ++ flat_map handlers_of cs
  | Fragment cs => flat_map handlers_of cs
  | NodeArray cs => flat_map handlers_of cs
  | Text _ | NodeFalse => []
  end.

(** * Properties *)

(** ** Strings *)

Lemma jsstring_eqb_eq (a b : jsstring) : a === b = true <-> a = b.
Proof.
  revert b; induction a as [|x a IH]; intros [|y b]; simpl; split; try congruence.
  - rewrite andb_true_iff, N.eqb_eq, IH. intros [-> ->]; reflexivity.
  - intros [= -> ->]. rewrite N.eqb_refl. apply IH. reflexivity.
Qed.

Lemma jsstring_eqb_neq (a b : jsstring) : a === b = false <-> a <> b.
Proof.
  rewrite <- jsstring_eqb_eq. destruct (a === b); split; congruence.
Qed.

Lemma trimStart_nil_iff (s : jsstring) : trimStart s = [] <-> whitespace_only s.
Proof.
  unfold whitespace_only. induction s as [|c s IH]; simpl.
  - split; [constructor | reflexivity].
  - destruct (is_white_space c) eqn:Hc.
    + rewrite IH. split; [intro H; constructor; assumption | intro H; inversion H; assumption].
    + split; [discriminate | intro H; inversion H; congruence].
Qed.

Lemma trimStart_whitespace_only (s : jsstring) :
  whitespace_only (trimStart s) <-> whitespace_only s.
Proof.
  unfold whitespace_only. induction s as [|c s IH]; simpl; [tauto|].
  destruct (is_white_space c) eqn:Hc; [|tauto].
  rewrite IH. split; [intro H; constructor; assumption | intro H; inversion H; assumption].
Qed.

Lemma trimEnd_nil_iff (s : jsstring) : trimEnd s = [] <-> whitespace_only s.
Proof.
  unfold trimEnd. split.
  - intro H. apply (f_equal (@rev N)) in H. rewrite rev_involutive in H. simpl in H.
    apply trimStart_nil_iff in H. unfold whitespace_only in *.
    rewrite <- (rev_involutive s). apply Forall_rev. assumption.
  - intro H. assert (Hr : trimStart (rev s) = []).
    { apply trimStart_nil_iff. apply Forall_rev. assumption. }
    rewrite Hr. reflexivity.
Qed.

(** The trimmed string is empty exactly for a white-space-only string. *)
Lemma trim_nil_iff (s : jsstring) : trim s = [] <-> whitespace_only s.
Proof.
  unfold trim. rewrite trimEnd_nil_iff. apply trimStart_whitespace_only.
Qed.

Lemma truthy_false_iff (s : jsstring) : truthy s = false <-> s = [].
Proof. destruct s; simpl; split; congruence. Qed.

Lemma has_content_not_whitespace_only (s : jsstring) :
  has_content s <-> ~ whitespace_only s.
Proof.
  unfold has_content, whitespace_only. induction s as [|c s IH].
  - split; [intro H; inversion H | intro H; exfalso; apply H; constructor].
  - split.
    + intros H Hall. inversion Hall; subst. inversion H; subst; [congruence|].
      apply IH in H1. contradiction.
    + intro H. destruct (is_white_space c) eqn:Hc.
      * apply Exists_cons_tl. apply IH. intro Hs. apply H. constructor; assumption.
      * apply Exists_cons_hd. assumption.
Qed.

(** ** Trees *)

Lemma node_eqb_Element t k ps cs t' k' ps' cs' :
  node_eqb (Element t k ps cs) (Element t' k' ps' cs')
  = String.eqb t t' && key_eqb k k' && props_eqb ps ps' && nodes_eqb cs cs'.
Proof. reflexivity. Qed.

Lemma style_eqb_eq (a b : list (string * jsstring)) : style_eqb a b = true <-> a = b.
Proof.
  revert b; induction a as [|[n v] a IH]; intros [|[m w] b]; simpl; split; try congruence.
  - rewrite !andb_true_iff, String.eqb_eq, jsstring_eqb_eq, IH.
    intros [[-> ->] ->]; reflexivity.
  - intros [= -> -> ->]. rewrite String.eqb_refl. simpl.
    rewrite (proj2 (jsstring_eqb_eq w w) eq_refl). simpl. apply IH. reflexivity.
Qed.

Lemma propval_eqb_eq (a b : PropVal) : propval_eqb a b = true <-> a = b.
Proof.
  destruct a, b; simpl; split; try congruence.
  - rewrite jsstring_eqb_eq; congruence.
  - intros [= ->]; apply jsstring_eqb_eq; reflexivity.
  - rewrite N.eqb_eq; congruence.
  - intros [= ->]; apply N.eqb_refl.
  - rewrite Bool.eqb_true_iff; congruence.
  - intros [= ->]; apply Bool.eqb_reflx.
  - rewrite Nat.eqb_eq; congruence.
  - intros [= ->]; apply Nat.eqb_refl.
  - rewrite style_eqb_eq; congruence.
  - intros [= ->]; apply style_eqb_eq; reflexivity.
Qed.

Lemma props_eqb_eq (a b : Props) : props_eqb a b = true <-> a = b.
Proof.
  revert b; induction a as [|[n v] a IH]; intros [|[m w] b]; simpl; split; try congruence.
  - rewrite !andb_true_iff, String.eqb_eq, propval_eqb_eq, IH.
    intros [[-> ->] ->]; reflexivity.
  - intros [= -> -> ->]. rewrite String.eqb_refl. simpl.
    rewrite (proj2 (propval_eqb_eq w w) eq_refl). simpl. apply IH. reflexivity.
Qed.

Lemma key_eqb_eq (a b : option jsstring) : key_eqb a b = true <-> a = b.
Proof.
  destruct a, b; simpl; split; try congruence.
  - rewrite jsstring_eqb_eq; congruence.
  - intros [= ->]; apply jsstring_eqb_eq; reflexivity.
Qed.

Lemma nodes_eqb_eq (xs : list Node) :
  Forall (fun x => forall y, node_eqb x y = true <-> x = y) xs ->
  forall ys, nodes_eqb xs ys = true <-> xs = ys.
Proof.
  induction 1 as [|x xs Hx _ IH]; intros [|y ys]; simpl; split; try congruence.
  - rewrite andb_true_iff, Hx, IH. intros [-> ->]; reflexivity.
  - intros [= -> ->]. rewrite (proj2 (Hx y) eq_refl). simpl. apply IH. reflexivity.
Qed.

(** [node_eqb] decides equality of trees. *)
Lemma node_eqb_eq (a b : Node) : node_eqb a b = true <-> a = b.
Proof.
  revert b; induction a as [t k ps cs IH | cs IH | s | cs IH | ] using Node_children_ind;
    intros [t' k' ps' cs' | cs' | s' | cs' | ];
    try (simpl; split; congruence).
  - rewrite node_eqb_Element, !andb_true_iff, String.eqb_eq, key_eqb_eq, props_eqb_eq,
      (nodes_eqb_eq cs IH). split; [intros [[[-> ->] ->] ->]; reflexivity | intros [= -> -> -> ->]; auto].
  - change (node_eqb (Fragment cs) (Fragment cs')) with (nodes_eqb cs cs').
    rewrite (nodes_eqb_eq cs IH). split; congruence.
  - simpl. rewrite jsstring_eqb_eq. split; congruence.
  - change (node_eqb (NodeArray cs) (NodeArray cs')) with (nodes_eqb cs cs').
    rewrite (nodes_eqb_eq cs IH). split; congruence.
Qed.

(** ** What a render computes *)

Lemma last_message_snoc (ms : list Message) (m : Message) :
  last_message (ms ++ [m]) = Some m.
Proof.
  destruct ms as [|m0 ms]; simpl; [reflexivity|].
  f_equal. apply last_last.
Qed.

Lemma last_message_Some (ms : list Message) (m : Message) :
  last_message ms = Some m <-> exists ms', ms = ms' ++ [m].
Proof.
  split.
  - destruct ms as [|m0 ms]; simpl; [discriminate|]. intros [= <-].
    destruct (@exists_last _ (m0 :: ms)) as [ms' [x E]]; [discriminate|].
    exists ms'. rewrite E. f_equal. f_equal.
    assert (H : last_message (m0 :: ms) = Some x) by (rewrite E; apply last_message_snoc).
    simpl in H. congruence.
  - intros [ms' ->]. apply last_message_snoc.
Qed.

Lemma nth_error_last (ms : list Message) :
  ms <> [] -> nth_error ms (length ms - 1) = last_message ms.
Proof.
  intro Hne. destruct (exists_last Hne) as [ms' [m E]]. subst ms.
  rewrite last_message_snoc, length_app. simpl.
  replace (length ms' + 1 - 1) with (length ms') by lia.
  rewrite nth_error_app2, Nat.sub_diag by lia. reflexivity.
Qed.

(** [messages[messages.length - 1]] is the last message of a non-empty array. *)
Lemma messages_index_last (p : ChatAreaProps) :
  messages p <> [] ->
  fst (messages_index (Z.of_nat (length (messages p)) - 1) p) = last_message (messages p).
Proof.
  intro H. unfold messages_index; simpl.
  assert (Hlen : 0 < length (messages p)) by (destruct (messages p); [congruence | simpl; lia]).
  destruct (Z.ltb_spec (Z.of_nat (length (messages p)) - 1) 0); [lia|].
  replace (Z.to_nat (Z.of_nat (length (messages p)) - 1)) with (length (messages p) - 1) by lia.
  apply nth_error_last; assumption.
Qed.

Lemma history_run (p : ChatAreaProps) : history p = (history_node (messages p), p).
Proof.
  unfold history, bind, messages_length, messages_map, ret.
  destruct (messages p) as [|m ms] eqn:E; simpl; [reflexivity|]. rewrite E. reflexivity.
Qed.

Lemma indicator_run (p : ChatAreaProps) (loading : bool) :
  indicator loading p = (indicator_node loading (messages p), p).
Proof.
  unfold indicator, indicator_node. destruct loading; [|reflexivity].
  unfold bind, messages_length, ret.
  destruct (messages p) as [|m ms] eqn:E; [reflexivity|].
  assert (Hne : messages p <> []) by congruence.
  pose proof (messages_index_last p Hne) as Hl. rewrite E in Hl.
  destruct (0 <? Z.of_nat (length (m :: ms)))%Z eqn:Hpos;
    [|apply Z.ltb_ge in Hpos; simpl length in Hpos; lia].
  cbv beta. rewrite ?E.
  destruct (messages_index (Z.of_nat (length (m :: ms)) - 1) p) as [a st'] eqn:Hm.
  cbn [fst] in Hl. subst a.
  assert (st' = p) by (unfold messages_index in Hm; congruence). subst st'.
  cbn [andb]. destruct (opt_role_is (last_message (m :: ms)) "user"); reflexivity.
Qed.

(** Every access of a render leaves the props as they were, and the tree
    has a fixed shape around the two transcript expressions. *)
Lemma ChatArea_run (p : ChatAreaProps) :
  ChatArea p =
  (Element "div" None [className "flex flex-col h-full"]
     [ header;
       Element "ScrollArea" None [className "flex-1 p-4"]
         [ Element "div" None [className "space-y-6"]
             [ history_node (messages p); indicator_node (isLoading p) (messages p) ] ];
       composer (input p) (handleInputChange p) (handleSubmit p) (isLoading p) ],
   p).
Proof.
  unfold ChatArea, bind, get, ret. rewrite history_run, indicator_run. reflexivity.
Qed.

Lemma render_tree (p : ChatAreaProps) :
  render p =
  Element "div" None [className "flex flex-col h-full"]
    [ header;
      Element "ScrollArea" None [className "flex-1 p-4"]
        [ Element "div" None [className "space-y-6"]
            [ history_node (messages p); indicator_node (isLoading p) (messages p) ] ];
      composer (input p) (handleInputChange p) (handleSubmit p) (isLoading p) ].
Proof. unfold render. rewrite ChatArea_run. reflexivity. Qed.

Lemma after_render_same (p : ChatAreaProps) : after_render p = p.
Proof. unfold after_render. rewrite ChatArea_run. reflexivity. Qed.

(** ** Where the loading indicator can occur *)

Lemma contains_Element (t : Node) ty k ps cs :
  contains t (Element ty k ps cs)
  = node_eqb (Element ty k ps cs) t || existsb (contains t) cs.
Proof. reflexivity. Qed.

Lemma contains_NodeArray (t : Node) cs :
  contains t (NodeArray cs) = node_eqb (NodeArray cs) t || existsb (contains t) cs.
Proof. reflexivity. Qed.

Lemma header_no_indicator : contains loading_indicator header = false.
Proof. vm_compute. reflexivity. Qed.

Lemma empty_state_no_indicator : contains loading_indicator empty_state = false.
Proof. vm_compute. reflexivity. Qed.

Lemma bubble_no_indicator (m : Message) :
  contains loading_indicator (message_bubble m) = false.
Proof.
  unfold message_bubble. destruct (role m === "user"); vm_compute; reflexivity.
Qed.

Lemma composer_no_indicator inp hc hs l :
  contains loading_indicator (composer inp hc hs l) = false.
Proof. vm_compute. reflexivity. Qed.

Lemma existsb_map_false {A B : Type} (f : B -> bool) (g : A -> B) (l : list A) :
  (forall a, f (g a) = false) -> existsb f (map g l) = false.
Proof.
  intro H. induction l as [|a l IH]; simpl; [reflexivity|]. rewrite H, IH. reflexivity.
Qed.

Lemma history_no_indicator (ms : list Message) :
  contains loading_indicator (history_node ms) = false.
Proof.
  destruct ms as [|m ms]; [apply empty_state_no_indicator|].
  unfold history_node. rewrite contains_NodeArray.
  rewrite (existsb_map_false _ _ _ bubble_no_indicator). reflexivity.
Qed.

Lemma indicator_node_contains (l : bool) (ms : list Message) :
  contains loading_indicator (indicator_node l ms)
  = l && opt_role_is (last_message ms) "user".
Proof.
  unfold indicator_node.
  destruct (l && opt_role_is (last_message ms) "user"); vm_compute; reflexivity.
Qed.

(** The indicator occurs in a render exactly when the indicator expression
    evaluates to it. *)
Lemma shows_loading_indicator_eq (p : ChatAreaProps) :
  shows_loading_indicator (render p)
  = isLoading p && opt_role_is (last_message (messages p)) "user".
Proof.
  unfold shows_loading_indicator. rewrite render_tree.
  rewrite contains_Element. cbn [existsb].
  rewrite header_no_indicator, composer_no_indicator.
  rewrite (contains_Element _ "ScrollArea"). cbn [existsb].
  rewrite (contains_Element _ "div" None [className "space-y-6"]). cbn [existsb].
  rewrite history_no_indicator, indicator_node_contains.
  rewrite !orb_false_r.
  destruct (isLoading p && opt_role_is (last_message (messages p)) "user");
    rewrite ?orb_true_r, ?orb_false_r; [reflexivity|].
  set (h := history_node (messages p)).
  set (c := composer _ _ _ _).
  set (i := indicator_node _ _).
  vm_compute. reflexivity.
Qed.

Lemma opt_role_is_true (o : option Message) (s : jsstring) :
  opt_role_is o s = true <-> exists m, o = Some m /\ role m = s.
Proof.
  destruct o as [m|]; simpl.
  - rewrite jsstring_eqb_eq. split; [intro H; exists m; auto | intros [m' [[= <-] H]]; exact H].
  - split; [discriminate | intros [m [H _]]; discriminate].
Qed.

(** The children of the transcript container: the bubbles (or the empty
    state), then the indicator if there is one. *)
Lemma transcript_render (p : ChatAreaProps) :
  transcript (render p)
  = flatten (history_node (messages p))
    ++ (if isLoading p && opt_role_is (last_message (messages p)) "user"
        then [loading_indicator] else []).
Proof.
  rewrite render_tree. unfold transcript.
  cbn [node_at nth_error children_of rendered_children flat_map].
  rewrite app_nil_r. f_equal. unfold indicator_node.
  destruct (isLoading p && opt_role_is (last_message (messages p)) "user"); reflexivity.
Qed.

Lemma flatten_bubbles (ms : list Message) :
  flat_map flatten (map message_bubble ms) = map message_bubble ms.
Proof.
  induction ms as [|m ms IH]; [reflexivity|].
  cbn [map flat_map]. rewrite IH. reflexivity.
Qed.

Lemma bubble_is_not_indicator (m : Message) : message_bubble m <> loading_indicator.
Proof. unfold message_bubble, loading_indicator. intros [= _]. Qed.

Lemma indicator_in_transcript (p : ChatAreaProps) :
  In loading_indicator (transcript (render p))
  <-> isLoading p && opt_role_is (last_message (messages p)) "user" = true.
Proof.
  rewrite transcript_render, in_app_iff.
  assert (Hh : ~ In loading_indicator (flatten (history_node (messages p)))).
  { destruct (messages p) as [|m ms].
    - simpl. intros [H|[]]. discriminate H.
    - unfold history_node. cbn [flatten]. rewrite flatten_bubbles, in_map_iff.
      intros [m' [H _]]. exact (bubble_is_not_indicator m' H). }
  destruct (isLoading p && opt_role_is (last_message (messages p)) "user"); simpl.
  - split; auto.
  - split; [intros [H|[]]; contradiction | discriminate].
Qed.

(** ** The loading indicator *)

(** C1: for every props assignment, the rendered transcript contains the
    loading indicator if and only if the loading flag is true, the message
    sequence is non-empty, and the role of its last message is ["user"]; and
    the indicator occurs nowhere else in the rendered tree. *)
Theorem C1_loading_indicator_iff (p : ChatAreaProps) :
  (In loading_indicator (transcript (render p))
   <-> isLoading p = true
       /\ messages p <> []
       /\ exists m, last_message (messages p) = Some m /\ role m = lit "user")
  /\ (shows_loading_indicator (render p) = true
      <-> In loading_indicator (transcript (render p))).
Proof.
  rewrite indicator_in_transcript, shows_loading_indicator_eq.
  split; [|tauto].
  rewrite andb_true_iff, opt_role_is_true.
  split.
  - intros [Hl [m [Hm Hr]]]. split; [exact Hl|]. split.
    + intro E. rewrite E in Hm. discriminate.
    + exists m. auto.
  - intros [Hl [_ H]]. auto.
Qed.

(** ** The submit control *)

Lemma submit_disabled_render (p : ChatAreaProps) :
  submit_disabled (render p)
  = Some (PBool (isLoading p || negb (truthy (trim (input p))))).
Proof. rewrite render_tree. reflexivity. Qed.

(** C2: for every props assignment the submit control is disabled if and
    only if the loading flag is true or the trimmed draft is empty; a draft
    of white space only disables it whatever the loading flag, and a draft
    with other content enables it when the loading flag is false. *)
Theorem C2_submit_disabled_iff (p : ChatAreaProps) :
  (submit_disabled (render p) = Some (PBool true)
   <-> isLoading p = true \/ trim (input p) = [])
  /\ (submit_disabled (render p) = Some (PBool false)
      <-> ~ (isLoading p = true \/ trim (input p) = []))
  /\ (whitespace_only (input p) -> submit_disabled (render p) = Some (PBool true))
  /\ (has_content (input p) -> isLoading p = false ->
      submit_disabled (render p) = Some (PBool false)).
Proof.
  rewrite submit_disabled_render.
  assert (Ht : truthy (trim (input p)) = false <-> whitespace_only (input p)).
  { rewrite truthy_false_iff. apply trim_nil_iff. }
  rewrite <- truthy_false_iff.
  assert (Hd : forall x y : bool, Some (PBool x) = Some (PBool y) <-> x = y)
    by (intros; split; congruence).
  rewrite !Hd.
  split; [|split; [|split]].
  - rewrite orb_true_iff, negb_true_iff. reflexivity.
  - destruct (isLoading p), (truthy (trim (input p))); simpl; intuition congruence.
  - intro H. apply Ht in H. rewrite H. apply orb_true_r.
  - intros H Hl. rewrite Hl. simpl.
    destruct (truthy (trim (input p))) eqn:E; [reflexivity|].
    apply has_content_not_whitespace_only in H. exfalso. apply H, Ht. reflexivity.
Qed.

(** ** The transcript *)

Lemma no_bubble_in_empty_render (m : Message) inp hc hs l :
  contains (message_bubble m)
    (Element "div" None [className "flex flex-col h-full"]
       [ header;
         Element "ScrollArea" None [className "flex-1 p-4"]
           [ Element "div" None [className "space-y-6"] [ empty_state; NodeFalse ] ];
         composer inp hc hs l ]) = false.
Proof. vm_compute. reflexivity. Qed.

(** C3: for every props assignment with an empty message sequence, whatever
    the loading flag and the draft, the transcript shows the empty-state
    greeting and nothing else: no message bubble and no loading indicator
    occurs in the rendered tree. *)
Theorem C3_empty_transcript (p : ChatAreaProps) :
  messages p = [] ->
  transcript (render p) = [empty_state]
  /\ shows_loading_indicator (render p) = false
  /\ forall m, contains (message_bubble m) (render p) = false.
Proof.
  intro E. split; [|split].
  - rewrite transcript_render, E. simpl. rewrite andb_false_r. reflexivity.
  - rewrite shows_loading_indicator_eq, E. simpl. apply andb_false_r.
  - intro m. rewrite render_tree, E. unfold indicator_node. simpl last_message.
    cbn [opt_role_is]. rewrite andb_false_r. apply no_bubble_in_empty_render.
Qed.

Lemma C3_empty_transcript_witness :
  transcript (render (mkProps [] "  " 1 2 true)) = [empty_state]
  /\ shows_loading_indicator (render (mkProps [] "  " 1 2 true)) = false
  /\ forall m, contains (message_bubble m) (render (mkProps [] "  " 1 2 true)) = false.
Proof. apply (C3_empty_transcript (mkProps [] "  " 1 2 true)). reflexivity. Defined.

Lemma transcript_nonempty (p : ChatAreaProps) :
  messages p <> [] ->
  transcript (render p)
  = map message_bubble (messages p)
    ++ (if shows_loading_indicator (render p) then [loading_indicator] else []).
Proof.
  intro H. rewrite transcript_render, shows_loading_indicator_eq.
  destruct (messages p) as [|m ms]; [congruence|].
  unfold history_node. cbn [flatten]. rewrite flatten_bubbles. reflexivity.
Qed.

Lemma transcript_nth_bubble (p : ChatAreaProps) (i : nat) (m : Message) :
  nth_error (messages p) i = Some m ->
  nth_error (transcript (render p)) i = Some (message_bubble m).
Proof.
  intro Hi.
  assert (Hne : messages p <> []) by (intro E; rewrite E in Hi; destruct i; discriminate).
  rewrite (transcript_nonempty p Hne).
  rewrite nth_error_app1 by (rewrite length_map; apply nth_error_Some; congruence).
  rewrite nth_error_map, Hi. reflexivity.
Qed.

(** C4: for every non-empty message sequence the transcript shows one bubble
    per message, in the order of the sequence, followed by the loading
    indicator when it is shown; each bubble is keyed by its message's id and
    its paragraph, of class [whitespace-pre-wrap], holds the message's
    content unchanged. *)
Theorem C4_one_bubble_per_message (p : ChatAreaProps) :
  messages p <> [] ->
  transcript (render p)
  = map message_bubble (messages p)
    ++ (if shows_loading_indicator (render p) then [loading_indicator] else [])
  /\ (forall i m, nth_error (messages p) i = Some m ->
        nth_error (transcript (render p)) i = Some (message_bubble m))
  /\ (forall m, key_of (message_bubble m) = Some (id m)
        /\ bubble_paragraph (message_bubble m)
           = Some (Element "p" None [className "whitespace-pre-wrap"] [Text (content m)])).
Proof.
  intro H. split; [apply transcript_nonempty; exact H|]. split.
  - intros i m. apply transcript_nth_bubble.
  - intro m. split; reflexivity.
Qed.

Lemma C4_one_bubble_per_message_witness :
  transcript (render (mkProps [mkMessage "user" "1" "Hi"] "" 1 2 true))
  = [message_bubble (mkMessage "user" "1" "Hi"); loading_indicator].
Proof.
  destruct (C4_one_bubble_per_message (mkProps [mkMessage "user" "1" "Hi"] "" 1 2 true))
    as [H _]; [discriminate|].
  rewrite H. reflexivity.
Defined.

(** ** Presentation by role *)

Lemma presentation_user (m : Message) :
  role m === "user" = true -> presentation_of (message_bubble m) = user_presentation.
Proof.
  intro H. unfold presentation_of, class_at, message_bubble. rewrite H. reflexivity.
Qed.

Lemma presentation_other (m : Message) :
  role m === "user" = false -> presentation_of (message_bubble m) = assistant_presentation.
Proof.
  intro H. unfold presentation_of, class_at, message_bubble. rewrite H. reflexivity.
Qed.

(** C5: the presentation of a bubble follows from its message's role: a
    ["user"] message gets the right-aligned, row-reversed, primary-coloured
    bubble with the "U" fallback, an ["assistant"] message the left-aligned,
    muted bubble with the "AI" fallback; this holds for the bubble of every
    message of a rendered sequence. *)
Theorem C5_presentation_by_role (p : ChatAreaProps) (i : nat) (m : Message) :
  nth_error (messages p) i = Some m ->
  exists b, nth_error (transcript (render p)) i = Some b
    /\ (role m = lit "user" -> presentation_of b = user_presentation)
    /\ (role m = lit "assistant" -> presentation_of b = assistant_presentation).
Proof.
  intro Hi. exists (message_bubble m).
  split; [apply transcript_nth_bubble; exact Hi|]. split.
  - intro Hr. apply presentation_user. apply jsstring_eqb_eq. exact Hr.
  - intro Hr. apply presentation_other. rewrite Hr. reflexivity.
Qed.

Lemma C5_presentation_by_role_witness :
  exists b,
    nth_error (transcript (render (mkProps [mkMessage "user" "1" "Hi";
                                            mkMessage "assistant" "2" "Hello!"] "" 1 2 false))) 1
    = Some b
    /\ presentation_of b = assistant_presentation.
Proof.
  destruct (C5_presentation_by_role
              (mkProps [mkMessage "user" "1" "Hi"; mkMessage "assistant" "2" "Hello!"] "" 1 2 false)
              1 (mkMessage "assistant" "2" "Hello!") eq_refl) as [b [Hb [_ Ha]]].
  exists b. split; [exact Hb | apply Ha; reflexivity].
Defined.

Lemma bubble_by_user_test (m m' : Message) :
  id m = id m' -> content m = content m' ->
  role m === "user" = (role m' === "user") ->
  message_bubble m = message_bubble m'.
Proof.
  intros Hi Hc Hr. unfold message_bubble. rewrite Hi, Hc, Hr. reflexivity.
Qed.

(** C10: a message whose role is not ["user"], whatever else it is
    (["assistant"], ["system"], ["data"], ...), is rendered with the assistant
    presentation: its bubble is the one the same message would get with the
    role ["assistant"], since the bubble depends on the role only through
    the test [role === "user"]. *)
Theorem C10_non_user_roles_as_assistant (p : ChatAreaProps) (i : nat) (m : Message) :
  nth_error (messages p) i = Some m ->
  role m <> lit "user" ->
  nth_error (transcript (render p)) i = Some (message_bubble m)
  /\ presentation_of (message_bubble m) = assistant_presentation
  /\ message_bubble m = message_bubble (mkMessage "assistant" (id m) (content m)).
Proof.
  intros Hi Hr. apply jsstring_eqb_neq in Hr.
  split; [apply transcript_nth_bubble; exact Hi|]. split.
  - apply presentation_other. exact Hr.
  - apply bubble_by_user_test; [reflexivity | reflexivity | rewrite Hr; reflexivity].
Qed.

Lemma C10_non_user_roles_as_assistant_witness :
  presentation_of (message_bubble (mkMessage "system" "7" "Be brief.")) = assistant_presentation.
Proof.
  apply (C10_non_user_roles_as_assistant
           (mkProps [mkMessage "system" "7" "Be brief."] "" 1 2 false) 0
           (mkMessage "system" "7" "Be brief.") eq_refl).
  discriminate.
Defined.

(** ** Gestures on a rendered tree *)

Lemma occurs_child (ty : string) (n c : Node) :
  occurs ty n = false -> In c (children_of n) -> occurs ty c = false.
Proof.
  intros H Hin.
  assert (He : existsb (occurs ty) (children_of n) = false).
  { destruct n; simpl in *; try reflexivity; try exact H.
    apply orb_false_iff in H. apply H. }
  destruct (occurs ty c) eqn:E; [|reflexivity].
  rewrite <- He. symmetry. apply existsb_exists. exists c. auto.
Qed.

Lemma dispatch_edit_absent (target : list nat) (v : jsstring) (n : Node) :
  occurs "Textarea" n = false -> dispatch_edit target v n = [].
Proof.
  revert n. induction target as [|i target IH]; intros n H.
  - destruct n as [ty k ps cs| | | |]; try reflexivity.
    simpl in *. apply orb_false_iff in H. destruct H as [H _]. rewrite H. reflexivity.
  - simpl. destruct (nth_error (children_of n) i) as [c|] eqn:E; [|reflexivity].
    apply IH. apply (occurs_child _ n); [exact H|]. apply nth_error_In with i. exact E.
Qed.

Lemma dispatch_activate_absent (target : list nat) (form : option FnRef) (n : Node) :
  occurs "Button" n = false -> dispatch_activate target form n = [].
Proof.
  revert n form. induction target as [|i target IH]; intros n form H.
  - destruct n as [ty k ps cs| | | |]; try reflexivity.
    simpl in *. apply orb_false_iff in H. destruct H as [H _]. rewrite H. reflexivity.
  - simpl. destruct (nth_error (children_of n) i) as [c|] eqn:E; [|reflexivity].
    apply IH. apply (occurs_child _ n); [exact H|]. apply nth_error_In with i. exact E.
Qed.

(** The transcript holds no control: neither a text area nor a button. *)
Lemma transcript_no_control (ty : string) (l : bool) (ms : list Message) :
  ty = "Textarea" \/ ty = "Button" ->
  occurs ty (Element "ScrollArea" None [className "flex-1 p-4"]
               [ Element "div" None [className "space-y-6"]
                   [ history_node ms; indicator_node l ms ] ]) = false.
Proof.
  intro Hty.
  assert (Hb : forall m, occurs ty (message_bubble m) = false).
  { intro m. unfold message_bubble.
    destruct Hty as [-> | ->]; destruct (role m === "user"); vm_compute; reflexivity. }
  assert (Hh : occurs ty (history_node ms) = false).
  { destruct ms as [|m ms]; [destruct Hty as [-> | ->]; vm_compute; reflexivity|].
    unfold history_node. cbn [occurs]. apply existsb_map_false. exact Hb. }
  assert (Hi : occurs ty (indicator_node l ms) = false).
  { unfold indicator_node.
    destruct (l && opt_role_is (last_message ms) "user");
      destruct Hty as [-> | ->]; vm_compute; reflexivity. }
  cbn [occurs existsb]. rewrite Hh, Hi.
  destruct Hty as [-> | ->]; reflexivity.
Qed.

(** An edit reaches a handler only at the composer's text area, where it
    invokes [handleInputChange] once with the new value. *)
Lemma dispatch_edit_render (p : ChatAreaProps) (target : list nat) (v : jsstring) :
  (target = textarea_path
   /\ dispatch_edit target v (render p) = [mkCall (handleInputChange p) (ChangeEvent v)])
  \/ (target <> textarea_path /\ dispatch_edit target v (render p) = []).
Proof.
  rewrite render_tree. unfold textarea_path.
  destruct target as [|i t]; [right; split; [discriminate | reflexivity]|].
  destruct i as [|[|[|i]]].
  - right. split; [discriminate|]. cbn [dispatch_edit children_of nth_error].
    apply dispatch_edit_absent. vm_compute. reflexivity.
  - right. split; [discriminate|]. cbn [dispatch_edit children_of nth_error].
    apply dispatch_edit_absent. apply transcript_no_control. left; reflexivity.
  - cbn [dispatch_edit children_of nth_error]. unfold composer.
    destruct t as [|j t]; [right; split; [discriminate | reflexivity]|].
    destruct j as [|[|j]].
    + cbn [dispatch_edit children_of nth_error].
      destruct t as [|k t]; [right; split; [discriminate | reflexivity]|].
      destruct k as [|[|k]].
      * destruct t as [|x t].
        -- left. split; reflexivity.
        -- right. split; [discriminate|]. destruct x; reflexivity.
      * right. split; [discriminate|]. cbn [dispatch_edit children_of nth_error].
        apply dispatch_edit_absent. reflexivity.
      * right. split; [discriminate|]. destruct k; reflexivity.
    + right. split; [discriminate|]. cbn [dispatch_edit children_of nth_error].
      apply dispatch_edit_absent. reflexivity.
    + right. split; [discriminate|]. destruct j; reflexivity.
  - right. split; [discriminate|]. destruct i; reflexivity.
Qed.

(** An activation reaches a handler only at the submit control, and only
    when the control is not disabled; it then invokes [handleSubmit]. *)
Lemma dispatch_activate_render (p : ChatAreaProps) (target : list nat) :
  (target = submit_path
   /\ dispatch_activate target None (render p)
      = if isLoading p || negb (truthy (trim (input p))) then []
        else [mkCall (handleSubmit p) SubmitEvent])
  \/ (target <> submit_path /\ dispatch_activate target None (render p) = []).
Proof.
  rewrite render_tree. unfold submit_path.
  destruct target as [|i t]; [right; split; [discriminate | reflexivity]|].
  destruct i as [|[|[|i]]].
  - right. split; [discriminate|]. cbn [dispatch_activate children_of nth_error].
    apply dispatch_activate_absent. vm_compute. reflexivity.
  - right. split; [discriminate|]. cbn [dispatch_activate children_of nth_error].
    apply dispatch_activate_absent. apply transcript_no_control. right; reflexivity.
  - cbn [dispatch_activate children_of nth_error]. unfold composer.
    destruct t as [|j t]; [right; split; [discriminate | reflexivity]|].
    destruct j as [|[|j]].
    + cbn [dispatch_activate children_of nth_error].
      destruct t as [|k t]; [right; split; [discriminate | reflexivity]|].
      destruct k as [|[|k]].
      * right. split; [discriminate|]. cbn [dispatch_activate children_of nth_error].
        apply dispatch_activate_absent. reflexivity.
      * destruct t as [|x t].
        -- left. split; [reflexivity|]. simpl.
           destruct (isLoading p || negb (truthy (trim (input p)))); reflexivity.
        -- right. split; [discriminate|]. cbn [dispatch_activate children_of nth_error].
           destruct x as [|x]; [|destruct x; reflexivity].
           apply dispatch_activate_absent. reflexivity.
      * right. split; [discriminate|]. destruct k; reflexivity.
    + right. split; [discriminate|]. cbn [dispatch_activate children_of nth_error].
      apply dispatch_activate_absent. reflexivity.
    + right. split; [discriminate|]. destruct j; reflexivity.
  - right. split; [discriminate|]. destruct i; reflexivity.
Qed.

Lemma dispatch_calls (p : ChatAreaProps) (g : Gesture) (c : Call) :
  In c (dispatch (render p) g) ->
  (exists v, g = Edit textarea_path v /\ c = mkCall (handleInputChange p) (ChangeEvent v))
  \/ (g = Activate submit_path /\ c = mkCall (handleSubmit p) SubmitEvent
      /\ isLoading p || negb (truthy (trim (input p))) = false).
Proof.
  destruct g as [target v | target]; simpl; intro H.
  - left. destruct (dispatch_edit_render p target v) as [[-> E] | [_ E]]; rewrite E in H.
    + destruct H as [<- | []]. exists v. auto.
    + destruct H.
  - right. destruct (dispatch_activate_render p target) as [[-> E] | [_ E]]; rewrite E in H.
    + destruct (isLoading p || negb (truthy (trim (input p)))); [destruct H|].
      destruct H as [<- | []]. auto.
    + destruct H.
Qed.

Section SessionInvariant.

Variable State : Type.
Variable props_of : State -> ChatAreaProps.
Variable react : State -> Call -> State.

Lemma step_log_ok (c c' : Config State) :
  step State props_of react c c' ->
  Forall (fun e => submit_entry_ok e /\ change_entry_ok e) (snd c) ->
  Forall (fun e => submit_entry_ok e /\ change_entry_ok e) (snd c').
Proof.
  intros Hstep Hlog. destruct Hstep as [s log g | s s' log]; simpl in *; [|exact Hlog].
  apply Forall_app. split; [exact Hlog|].
  apply Forall_forall. intros e He. apply in_map_iff in He. destruct He as [c [<- Hc]].
  apply dispatch_calls in Hc.
  destruct Hc as [[v [-> ->]] | [-> [-> Hen]]]; split; red; simpl.
  - discriminate.
  - intros v' [= <-]. auto.
  - intros _. rewrite submit_disabled_render, Hen. auto.
  - discriminate.
Qed.

Lemma reachable_log_ok (s0 : State) (c : Config State) :
  reachable State props_of react s0 c ->
  Forall (fun e => submit_entry_ok e /\ change_entry_ok e) (snd c).
Proof.
  induction 1 as [|c c' _ IH Hstep]; [constructor|].
  exact (step_log_ok c c' Hstep IH).
Qed.

End SessionInvariant.

(** ** The composer *)

(** C6: [handleSubmit] is invoked only by a submission of the composer form,
    and never while the submit control is disabled (the loading flag true or
    the trimmed draft empty): in every session every submission call was
    made through the enabled submit control; the form hands a submission to
    [handleSubmit] itself, so that with the control enabled an activation
    always invokes it. *)
Theorem C6_submit_only_when_enabled :
  (forall (State : Type) (props_of : State -> ChatAreaProps)
          (react : State -> Call -> State) (s0 s : State) (log : list Entry),
      reachable State props_of react s0 (s, log) -> Forall submit_entry_ok log)
  /\ (forall p g c, In c (dispatch (render p) g) -> argument c = SubmitEvent ->
        g = Activate submit_path /\ callee c = handleSubmit p
        /\ isLoading p = false /\ trim (input p) <> [])
  /\ (forall p g c, handleSubmit p <> handleInputChange p ->
        In c (dispatch (render p) g) -> callee c = handleSubmit p ->
        g = Activate submit_path /\ submit_disabled (render p) = Some (PBool false))
  /\ (forall p, submit_disabled (render p) = Some (PBool false) ->
        dispatch (render p) (Activate submit_path) = [mkCall (handleSubmit p) SubmitEvent])
  /\ (forall p, match node_at form_path (render p) with
                | Some form => prop_of "onSubmit" form = Some (PFn (handleSubmit p))
                | None => False
                end).
Proof.
  split; [|split; [|split; [|split]]].
  - intros State props_of react s0 s log H.
    apply (reachable_log_ok State props_of react) in H. simpl in H.
    apply Forall_forall. intros e He.
    exact (proj1 (proj1 (Forall_forall _ _) H e He)).
  - intros p g c Hc Harg. apply dispatch_calls in Hc.
    destruct Hc as [[v [-> ->]] | [-> [-> Hen]]]; [discriminate|].
    apply orb_false_iff in Hen. destruct Hen as [Hl Ht].
    apply negb_false_iff in Ht. repeat split; auto.
    intro E. rewrite E in Ht. discriminate.
  - intros p g c Hne Hc Hcallee. apply dispatch_calls in Hc.
    destruct Hc as [[v [-> ->]] | [-> [-> Hen]]].
    + simpl in Hcallee. congruence.
    + rewrite submit_disabled_render, Hen. auto.
  - intros p H. rewrite submit_disabled_render in H. injection H as H.
    destruct (dispatch_activate_render p submit_path) as [[_ E] | [Hne _]]; [|congruence].
    unfold dispatch. rewrite E, H. reflexivity.
  - intro p. rewrite render_tree. reflexivity.
Qed.

Lemma C6_submit_only_when_enabled_witness :
  Forall submit_entry_ok
    [ mkEntry (mkProps [] "" 1 2 false) (Edit textarea_path "Hi") (mkCall 1 (ChangeEvent "Hi"));
      mkEntry (mkProps [] "Hi" 1 2 false) (Activate submit_path) (mkCall 2 SubmitEvent) ].
Proof.
  apply (proj1 C6_submit_only_when_enabled ChatAreaProps (fun s => s) sample_react
           (mkProps [] "" 1 2 false)
           (mkProps [mkMessage "user" "Hi" "Hi"] "" 1 2 true)).
  apply reach_step with (c := (mkProps [] "Hi" 1 2 false,
    [mkEntry (mkProps [] "" 1 2 false) (Edit textarea_path "Hi") (mkCall 1 (ChangeEvent "Hi"))])).
  - apply reach_step with (c := (mkProps [] "" 1 2 false, [])).
    + apply reach_start.
    + exact (step_gesture ChatAreaProps (fun s => s) sample_react
               (mkProps [] "" 1 2 false) [] (Edit textarea_path "Hi")).
  - exact (step_gesture ChatAreaProps (fun s => s) sample_react
             (mkProps [] "Hi" 1 2 false)
             [mkEntry (mkProps [] "" 1 2 false) (Edit textarea_path "Hi")
                      (mkCall 1 (ChangeEvent "Hi"))]
             (Activate submit_path)).
Defined.

(** C7: the composer's text area is controlled by the caller: the text it
    displays is the [input] prop of the render, and an edit invokes
    [handleInputChange] exactly once, with the change event that carries the
    new value; no other gesture invokes a handler with a change event. *)
Theorem C7_controlled_input :
  (forall p, displayed_draft (render p) = Some (PString (input p)))
  /\ (forall p v, dispatch (render p) (Edit textarea_path v)
                 = [mkCall (handleInputChange p) (ChangeEvent v)])
  /\ (forall p g c v, In c (dispatch (render p) g) -> argument c = ChangeEvent v ->
        g = Edit textarea_path v /\ callee c = handleInputChange p)
  /\ (forall (State : Type) (props_of : State -> ChatAreaProps)
             (react : State -> Call -> State) (s0 s : State) (log : list Entry),
        reachable State props_of react s0 (s, log) ->
        displayed_draft (render (props_of s)) = Some (PString (input (props_of s)))
        /\ Forall change_entry_ok log).
Proof.
  assert (Hd : forall p, displayed_draft (render p) = Some (PString (input p))).
  { intro p. rewrite render_tree. reflexivity. }
  split; [exact Hd|]. split; [|split].
  - intros p v. unfold dispatch.
    destruct (dispatch_edit_render p textarea_path v) as [[_ E] | [Hne _]]; congruence.
  - intros p g c v Hc Harg. apply dispatch_calls in Hc.
    destruct Hc as [[v' [-> ->]] | [-> [-> Hen]]]; [|discriminate].
    simpl in Harg. injection Harg as ->. auto.
  - intros State props_of react s0 s log H. split; [apply Hd|].
    apply (reachable_log_ok State props_of react) in H. simpl in H.
    apply Forall_forall. intros e He.
    exact (proj2 (proj1 (Forall_forall _ _) H e He)).
Qed.

(** ** The caller's data across a render *)

(** C9: a render leaves the caller's data as it found them: the props after
    it are the props before it, so the message sequence, with every
    message's role, id and content, and the draft are unchanged; and what a
    rendered tree invokes on a gesture is one of the two supplied callbacks. *)
Theorem C9_render_mutates_nothing (p : ChatAreaProps) :
  after_render p = p
  /\ messages (after_render p) = messages p
  /\ input (after_render p) = input p
  /\ (forall g c, In c (dispatch (render p) g) ->
        callee c = handleInputChange p \/ callee c = handleSubmit p).
Proof.
  rewrite after_render_same. repeat split.
  intros g c Hc. apply dispatch_calls in Hc.
  destruct Hc as [[v [_ ->]] | [_ [-> _]]]; simpl; auto.
Qed.

(** ** The scenarios of the specification *)

Example white_space_code_units :
  map is_white_space [9; 32; 160; 8192; 8202; 8203; 12288; 65279; 65]%N
  = [true; true; true; true; true; false; true; true; false].
Proof. reflexivity. Qed.

Example trim_draft : trim " a b  " = lit "a b".
Proof. reflexivity. Qed.

Example scenario_empty :
  transcript (render (mkProps [] "" 1 2 false)) = [empty_state]
  /\ submit_disabled (render (mkProps [] "" 1 2 false)) = Some (PBool true).
Proof. split; reflexivity. Qed.

Example scenario_awaiting_reply :
  transcript (render (mkProps [mkMessage "user" "1" "Hi"] "" 1 2 true))
  = [message_bubble (mkMessage "user" "1" "Hi"); loading_indicator].
Proof. reflexivity. Qed.

Example scenario_replied :
  transcript (render (mkProps [mkMessage "user" "1" "Hi"; mkMessage "assistant" "2" "Hello!"]
                              "more" 1 2 false))
  = [message_bubble (mkMessage "user" "1" "Hi"); message_bubble (mkMessage "assistant" "2" "Hello!")]
  /\ submit_disabled (render (mkProps [mkMessage "user" "1" "Hi"; mkMessage "assistant" "2" "Hello!"]
                                      "more" 1 2 false)) = Some (PBool false).
Proof. split; reflexivity. Qed.

Example scenario_loading_after_assistant :
  shows_loading_indicator
    (render (mkProps [mkMessage "user" "1" "Hi"; mkMessage "assistant" "2" "Hello!"] "" 1 2 true))
  = false.
Proof. reflexivity. Qed.

(** * Further properties of the component *)

(** ** Keys of the transcript *)

Lemma keys_of_bubbles (ms : list Message) :
  map key_of (map message_bubble ms) = map (fun m => Some (id m)) ms.
Proof. rewrite map_map. reflexivity. Qed.

Lemma transcript_keys (p : ChatAreaProps) :
  map key_of (transcript (render p))
  = match messages p with
    | [] => [None]
    | _ :: _ =>
        map (fun m => Some (id m)) (messages p)
        ++ (if shows_loading_indicator (render p) then [None] else [])
    end.
Proof.
  destruct (messages p) as [|m ms] eqn:E.
  - rewrite transcript_render, E. simpl. rewrite andb_false_r. reflexivity.
  - assert (Hne : messages p <> []) by congruence.
    rewrite (transcript_nonempty p Hne), E, map_app, keys_of_bubbles.
    destruct (shows_loading_indicator (render p)); reflexivity.
Qed.

Lemma NoDup_map_Some {A : Type} (l : list A) :
  NoDup (map (@Some A) l) <-> NoDup l.
Proof.
  split.
  - apply NoDup_map_inv.
  - induction 1 as [|a l Hin _ IH]; simpl; constructor; [|exact IH].
    rewrite in_map_iff. intros [x [[= ->] Hx]]. contradiction.
Qed.

Lemma NoDup_snoc_None {A : Type} (l : list A) :
  NoDup (map (@Some A) l ++ [None]) <-> NoDup l.
Proof.
  split.
  - intro H. apply NoDup_app_remove_r in H. apply NoDup_map_Some. exact H.
  - induction 1 as [|a l Hin _ IH]; simpl.
    + constructor; [intros []|constructor].
    + constructor; [|exact IH].
      rewrite in_app_iff, in_map_iff.
      intros [[x [[= ->] Hx]]|[Hx|[]]]; [contradiction|discriminate].
Qed.

(** X1: the keys of the transcript's children are pairwise distinct exactly
    when the ids of the messages are: the bubbles carry the ids as keys, the
    empty state and the loading indicator carry none, and the component
    neither removes nor renames a repeated id. *)
Theorem X1_keys_distinct_iff_ids_distinct (p : ChatAreaProps) :
  NoDup (map key_of (transcript (render p))) <-> NoDup (map id (messages p)).
Proof.
  rewrite transcript_keys.
  destruct (messages p) as [|m ms] eqn:E.
  - simpl. split; intros _; constructor; [intros [] | constructor].
  - replace (map (fun m0 => Some (id m0)) (m :: ms))
      with (map (@Some jsstring) (map id (m :: ms))) by (rewrite map_map; reflexivity).
    destruct (shows_loading_indicator (render p)).
    + apply NoDup_snoc_None.
    + rewrite app_nil_r. apply NoDup_map_Some.
Qed.

(** ** Handlers in the tree *)

Lemma bubble_no_handler (m : Message) : handlers_of (message_bubble m) = [].
Proof. unfold message_bubble. destruct (role m === "user"); reflexivity. Qed.

Lemma history_no_handler (ms : list Message) : handlers_of (history_node ms) = [].
Proof.
  destruct ms as [|m ms]; [reflexivity|]. unfold history_node. cbn [handlers_of].
  induction (m :: ms) as [|a l IH]; [reflexivity|].
  cbn [map flat_map]. rewrite bubble_no_handler, IH. reflexivity.
Qed.

Lemma indicator_no_handler (l : bool) (ms : list Message) :
  handlers_of (indicator_node l ms) = [].
Proof.
  unfold indicator_node. destruct (l && opt_role_is (last_message ms) "user"); reflexivity.
Qed.

(** X2: whatever the props, the rendered tree holds exactly two handlers:
    [handleSubmit] as the [onSubmit] of the form and [handleInputChange] as
    the [onChange] of the text area; the header, the bubbles, the empty
    state, the loading indicator and the button carry none. *)
Theorem X2_handlers_of_render (p : ChatAreaProps) :
  handlers_of (render p)
  = [ ("form", ("onSubmit", handleSubmit p));
      ("Textarea", ("onChange", handleInputChange p)) ].
Proof.
  rewrite render_tree.
  cbn [handlers_of flat_map fn_props className map app].
  rewrite history_no_handler, indicator_no_handler. reflexivity.
Qed.

(** ** The indicator and the last bubble *)

(** X3: whenever the loading indicator is shown it comes directly after the
    bubble of the last message, that bubble has the user presentation, and
    the submit control is disabled. *)
Theorem X3_indicator_follows_user_bubble (p : ChatAreaProps) :
  shows_loading_indicator (render p) = true ->
  exists ms m,
    messages p = ms ++ [m]
    /\ transcript (render p) = map message_bubble ms ++ [message_bubble m; loading_indicator]
    /\ presentation_of (message_bubble m) = user_presentation
    /\ submit_disabled (render p) = Some (PBool true).
Proof.
  intro H. pose proof H as Hs. rewrite shows_loading_indicator_eq in H.
  apply andb_true_iff in H. destruct H as [Hl Hr].
  apply opt_role_is_true in Hr. destruct Hr as [m [Hm Hu]].
  apply last_message_Some in Hm. destruct Hm as [ms E].
  exists ms, m. split; [exact E|]. split; [|split].
  - assert (Hne : messages p <> []) by (rewrite E; destruct ms; discriminate).
    rewrite (transcript_nonempty p Hne), Hs, E, map_app, <- app_assoc. reflexivity.
  - apply presentation_user. apply jsstring_eqb_eq. exact Hu.
  - rewrite submit_disabled_render, Hl. reflexivity.
Qed.

Lemma X3_indicator_follows_user_bubble_witness :
  exists ms m,
    [mkMessage "assistant" "1" "Hello!"; mkMessage "user" "2" "Hi"] = ms ++ [m]
    /\ presentation_of (message_bubble m) = user_presentation.
Proof.
  destruct (X3_indicator_follows_user_bubble
              (mkProps [mkMessage "assistant" "1" "Hello!"; mkMessage "user" "2" "Hi"]
                       "next" 1 2 true) eq_refl) as [ms [m [E [_ [Hp _]]]]].
  exists ms, m. split; [exact E | exact Hp].
Defined.

(** ** The draft and the submit control *)

Lemma whitespace_only_pad (a s b : jsstring) :
  whitespace_only a -> whitespace_only b ->
  (whitespace_only (a ++ s ++ b) <-> whitespace_only s).
Proof.
  unfold whitespace_only. intros Ha Hb. rewrite !Forall_app. tauto.
Qed.

Lemma truthy_trim_pad (a s b : jsstring) :
  whitespace_only a -> whitespace_only b ->
  truthy (trim (a ++ s ++ b)) = truthy (trim s).
Proof.
  intros Ha Hb.
  pose proof (whitespace_only_pad a s b Ha Hb) as Hp.
  rewrite <- !trim_nil_iff, <- !truthy_false_iff in Hp.
  destruct (truthy (trim (a ++ s ++ b))), (truthy (trim s)); try reflexivity.
  - exact (proj2 Hp eq_refl).
  - symmetry. exact (proj1 Hp eq_refl).
Qed.

(** X4: white space around the draft has no effect on the submit control:
    a draft and the same draft with white space put before and after it
    give the same [disabled] value, whatever the other props. *)
Theorem X4_disabled_ignores_surrounding_white_space
    (ms : list Message) (inp a b : jsstring) (hc hs : FnRef) (l : bool) :
  whitespace_only a -> whitespace_only b ->
  submit_disabled (render (mkProps ms (a ++ inp ++ b) hc hs l))
  = submit_disabled (render (mkProps ms inp hc hs l)).
Proof.
  intros Ha Hb. rewrite !submit_disabled_render. cbn [input isLoading].
  rewrite (truthy_trim_pad a inp b Ha Hb). reflexivity.
Qed.

Lemma X4_disabled_ignores_surrounding_white_space_witness :
  submit_disabled (render (mkProps [] (lit "  " ++ lit "Hi" ++ [10%N; 8195%N]) 1 2 false))
  = Some (PBool false).
Proof.
  rewrite (X4_disabled_ignores_surrounding_white_space [] (lit "Hi") (lit "  ")
             [10%N; 8195%N] 1 2 false).
  - reflexivity.
  - repeat constructor.
  - repeat constructor.
Defined.

(** ** What each region depends on *)

(** X5: the transcript depends on the message sequence and the loading flag
    only: a change of the draft or of the callbacks leaves every child of
    the transcript as it was. *)
Theorem X5_transcript_ignores_draft_and_callbacks (p q : ChatAreaProps) :
  messages p = messages q ->
  isLoading p = isLoading q ->
  transcript (render p) = transcript (render q).
Proof.
  intros Hm Hl. rewrite !transcript_render, Hm, Hl. reflexivity.
Qed.

Lemma X5_transcript_ignores_draft_and_callbacks_witness :
  transcript (render (mkProps [mkMessage "user" "1" "Hi"] "" 1 2 true))
  = transcript (render (mkProps [mkMessage "user" "1" "Hi"] "typing..." 3 4 true)).
Proof.
  apply (X5_transcript_ignores_draft_and_callbacks
           (mkProps [mkMessage "user" "1" "Hi"] "" 1 2 true)
           (mkProps [mkMessage "user" "1" "Hi"] "typing..." 3 4 true)); reflexivity.
Defined.

(** X6: what a gesture invokes depends on the draft, the loading flag and
    the callbacks only: two renders that agree on these answer every gesture
    with the same calls, whatever their message sequences, and their
    composers are the same tree. *)
Theorem X6_gestures_ignore_messages (p q : ChatAreaProps) :
  input p = input q ->
  isLoading p = isLoading q ->
  handleInputChange p = handleInputChange q ->
  handleSubmit p = handleSubmit q ->
  node_at [2] (render p) = node_at [2] (render q)
  /\ forall g, dispatch (render p) g = dispatch (render q) g.
Proof.
  intros Hi Hl Hc Hs. split.
  - rewrite !render_tree, Hi, Hl, Hc, Hs. reflexivity.
  - intros [target v | target]; unfold dispatch.
    + destruct (dispatch_edit_render p target v) as [[Hp Ep] | [Hp Ep]];
        destruct (dispatch_edit_render q target v) as [[Hq Eq] | [Hq Eq]];
        try contradiction; rewrite Ep, Eq; congruence.
    + destruct (dispatch_activate_render p target) as [[Hp Ep] | [Hp Ep]];
        destruct (dispatch_activate_render q target) as [[Hq Eq] | [Hq Eq]];
        try contradiction; rewrite Ep, Eq; [|reflexivity].
      rewrite Hi, Hl, Hs. reflexivity.
Qed.

Lemma X6_gestures_ignore_messages_witness :
  dispatch (render (mkProps [] "Hi" 1 2 false)) (Activate submit_path)
  = dispatch (render (mkProps [mkMessage "assistant" "1" "Hello!"] "Hi" 1 2 false))
      (Activate submit_path).
Proof.
  apply (X6_gestures_ignore_messages
           (mkProps [] "Hi" 1 2 false)
           (mkProps [mkMessage "assistant" "1" "Hello!"] "Hi" 1 2 false)); reflexivity.
Defined.

(** ** Size and growth of the transcript *)

(** X7: the transcript is never empty: it has one child for an empty
    message sequence and one child per message otherwise, plus one when the
    loading indicator is shown. *)
Theorem X7_transcript_length (p : ChatAreaProps) :
  length (transcript (render p))
  = Nat.max 1 (length (messages p))
    + (if shows_loading_indicator (render p) then 1 else 0).
Proof.
  rewrite shows_loading_indicator_eq, transcript_render, length_app.
  destruct (messages p) as [|m ms].
  - simpl. rewrite andb_false_r. reflexivity.
  - unfold history_node. cbn [flatten]. rewrite flatten_bubbles, length_map.
    destruct (isLoading p && opt_role_is (last_message (m :: ms)) "user"); simpl; lia.
Qed.

(** X8: appending a message keeps every bubble already shown and puts the
    new bubble directly after them, whatever happens to the other props;
    the loading indicator then depends on the new message alone. *)
Theorem X8_append_message (ms : list Message) (m : Message)
    (inp : jsstring) (hc hs : FnRef) (l : bool) :
  transcript (render (mkProps (ms ++ [m]) inp hc hs l))
  = map message_bubble ms
    ++ message_bubble m
       :: (if l && (role m === "user") then [loading_indicator] else []).
Proof.
  assert (Hne : messages (mkProps (ms ++ [m]) inp hc hs l) <> [])
    by (simpl; destruct ms; discriminate).
  rewrite (transcript_nonempty _ Hne), shows_loading_indicator_eq.
  cbn [messages isLoading]. rewrite last_message_snoc, map_app, <- app_assoc.
  reflexivity.
Qed.

(** ** The index of the last message *)

Lemma messages_index_bounds (p : ChatAreaProps) (i : Z) :
  fst (messages_index i p) = None <-> (i < 0 \/ Z.of_nat (length (messages p)) <= i)%Z.
Proof.
  unfold messages_index. cbn [fst].
  destruct (Z.ltb_spec i 0) as [Hneg | Hpos].
  - split; [left; exact Hneg | reflexivity].
  - rewrite nth_error_None. split; [intro H; right; lia | intros [H|H]; lia].
Qed.

(** X9: [messages[messages.length - 1]] is the last message of the array,
    and is [undefined] exactly for the empty array, where the index is -1;
    an index is outside the array exactly when it is negative or at least
    the length. *)
Theorem X9_last_index (p : ChatAreaProps) :
  fst (messages_index (Z.of_nat (length (messages p)) - 1) p) = last_message (messages p)
  /\ (fst (messages_index (Z.of_nat (length (messages p)) - 1) p) = None
      <-> messages p = [])
  /\ (forall i, fst (messages_index i p) = None
                <-> (i < 0 \/ Z.of_nat (length (messages p)) <= i)%Z).
Proof.
  assert (Hl : fst (messages_index (Z.of_nat (length (messages p)) - 1) p)
               = last_message (messages p)).
  { destruct (messages p) as [|m ms] eqn:E.
    - unfold messages_index. rewrite E. reflexivity.
    - rewrite <- E. apply messages_index_last. congruence. }
  split; [exact Hl|]. split; [|apply messages_index_bounds].
  rewrite Hl. destruct (messages p); simpl; split; congruence.
Qed.

(** ** What a bubble tells about its message *)

(** X10: two messages get the same bubble exactly when they have the same
    id, the same content, and agree on whether the role is ["user"]: the
    bubble shows these three and nothing else of the message. *)
Theorem X10_bubble_determines_message (m m' : Message) :
  message_bubble m = message_bubble m'
  <-> id m = id m' /\ content m = content m'
      /\ (role m === "user") = (role m' === "user").
Proof.
  split.
  - unfold message_bubble.
    destruct (role m === "user"), (role m' === "user"); intro H;
      injection H; intros; try discriminate; auto.
  - intros [Hi [Hc Hr]]. apply bubble_by_user_test; assumption.
Qed.

(** ** What [trim] removes *)

Lemma trimStart_split (s : jsstring) :
  exists pre, s = pre ++ trimStart s /\ whitespace_only pre.
Proof.
  induction s as [|c s [pre [E Hpre]]]; simpl.
  - exists []. split; [reflexivity | constructor].
  - destruct (is_white_space c) eqn:Hc.
    + exists (c :: pre). split; [simpl; f_equal; exact E | constructor; assumption].
    + exists []. split; [reflexivity | constructor].
Qed.

Lemma trimStart_head (s : jsstring) (c : N) (t : jsstring) :
  trimStart s = c :: t -> is_white_space c = false.
Proof.
  induction s as [|x s IH]; simpl; [discriminate|].
  destruct (is_white_space x) eqn:Hx; [exact IH|]. intros [= <- _]. exact Hx.
Qed.

Lemma trimStart_idempotent (s : jsstring) : trimStart (trimStart s) = trimStart s.
Proof.
  destruct (trimStart s) as [|c t] eqn:E; [reflexivity|].
  simpl. rewrite (trimStart_head s c t E). reflexivity.
Qed.

Lemma trimStart_before_content (l : jsstring) (c : N) (r : jsstring) :
  is_white_space c = false -> trimStart (l ++ c :: r) = trimStart l ++ c :: r.
Proof.
  intro Hc. induction l as [|x l IH]; simpl.
  - rewrite Hc. reflexivity.
  - destruct (is_white_space x); [exact IH | reflexivity].
Qed.

Lemma trimEnd_split (s : jsstring) :
  exists post, s = trimEnd s ++ post /\ whitespace_only post.
Proof.
  destruct (trimStart_split (rev s)) as [pre [E Hpre]].
  exists (rev pre). split.
  - unfold trimEnd. rewrite <- rev_app_distr, <- E, rev_involutive. reflexivity.
  - apply Forall_rev. exact Hpre.
Qed.

Lemma trimEnd_last (s t : jsstring) (c : N) :
  trimEnd s = t ++ [c] -> is_white_space c = false.
Proof.
  unfold trimEnd. intro H. apply (f_equal (@rev N)) in H.
  rewrite rev_involutive, rev_app_distr in H. simpl in H.
  exact (trimStart_head _ _ _ H).
Qed.

Lemma trimEnd_cons (c : N) (t : jsstring) :
  is_white_space c = false -> trimEnd (c :: t) = c :: trimEnd t.
Proof.
  intro Hc. unfold trimEnd. simpl rev.
  rewrite (trimStart_before_content (rev t) c [] Hc), rev_app_distr. reflexivity.
Qed.

Lemma trimEnd_idempotent (s : jsstring) : trimEnd (trimEnd s) = trimEnd s.
Proof.
  unfold trimEnd. rewrite rev_involutive, trimStart_idempotent. reflexivity.
Qed.

Lemma trim_head (s : jsstring) (c : N) (t : jsstring) :
  trim s = c :: t -> is_white_space c = false.
Proof.
  unfold trim. destruct (trimStart s) as [|x u] eqn:E; [discriminate|].
  pose proof (trimStart_head s x u E) as Hx.
  rewrite (trimEnd_cons x u Hx). intros [= <- _]. exact Hx.
Qed.

(** X11: [trim] removes a run of white space at the start and one at the
    end and nothing else: the string is the trimmed string between two runs
    of white space, the trimmed string neither starts nor ends with white
    space, and trimming it again changes nothing. *)
Theorem X11_trim_removes_outer_white_space (s : jsstring) :
  (exists pre post,
      s = pre ++ trim s ++ post /\ whitespace_only pre /\ whitespace_only post)
  /\ (forall c t, trim s = c :: t -> is_white_space c = false)
  /\ (forall t c, trim s = t ++ [c] -> is_white_space c = false)
  /\ trim (trim s) = trim s.
Proof.
  split; [|split; [|split]].
  - destruct (trimStart_split s) as [pre [E Hpre]].
    destruct (trimEnd_split (trimStart s)) as [post [E' Hpost]].
    exists pre, post. unfold trim. rewrite <- E'. auto.
  - apply trim_head.
  - intros t c. unfold trim. apply trimEnd_last.
  - destruct (trim s) as [|c t] eqn:E; [reflexivity|].
    pose proof (trim_head s c t E) as Hc.
    unfold trim at 1. simpl trimStart. rewrite Hc, <- E.
    unfold trim. apply trimEnd_idempotent.
Qed.
